(** * Session bootstrap and role-based routing of [App.jsx]

    A shallow embedding of the [App] component of the dashboard front end:
    the state it keeps ([user], [loading]), the browser's [localStorage] it
    reads at mount and clears at logout, the handlers [handleLogin] and
    [handleLogout], and the [<Routes>] table that maps the current [user]
    and the requested path to the element that is rendered.

    JavaScript values are modelled as far as the component looks at them:
    [localStorage.getItem] yields [null] or a string ([option string]); the
    [user] state is [null] or an object with the four fields the mount
    effect stores ([option User]). *)

From Stdlib Require Import Strings.Ascii.
From stdpp Require Import gmap strings list fin_maps.

Open Scope string_scope.

(** ** JavaScript truthiness and strict equality, on [null] or a string *)

Module JS.

(** [Boolean(v)] for a value that is [null] or a string: [null] and the
    empty string are falsy, every other string is truthy. *)
Definition truthy (v : option string) : bool :=
  match v with
  | Some s => negb (String.eqb s "")
  | None => false
  end.

(** [v === lit] for a value that is [null] or a string and a string
    literal. *)
Definition strict_eq (v : option string) (lit : string) : bool :=
  match v with
  | Some s => String.eqb s lit
  | None => false
  end.

(** [Boolean(v)] for a value that is [null] or an object: every object
    is truthy. *)
Definition truthy_obj {A : Type} (v : option A) : bool :=
  match v with
  | Some _ => true
  | None => false
  end.

(** The spec's wording of a truthy stored field: present and non-empty. *)
Definition present_nonempty (v : option string) : Prop :=
  ∃ s, v = Some s ∧ s ≠ "".

End JS.

(** ** The browser's [localStorage]: a string-keyed, string-valued store *)

Module LocalStorage.

Definition getItem (key : string) (store : gmap string string) : option string :=
  store !! key.

Definition clear (store : gmap string string) : gmap string string := ∅.

End LocalStorage.

(** ** Component state *)

(** The object literal [{ token, role, user_id, name }] of the mount effect.
    Each field holds what [getItem] returned, so each may be [null]. *)
Record User := mkUser {
  token : option string;
  role : option string;
  user_id : option string;
  name : option string
}.

(** [localStorage] together with the two [useState] cells of [App]. *)
Record AppState := mkApp {
  localStorage : gmap string string;
  user : option User;
  loading : bool
}.

(** First render of a fresh process: [useState(null)], [useState(true)]. *)
Definition mount (store : gmap string string) : AppState :=
  {| localStorage := store; user := None; loading := true |}.

Definition setUser (u : option User) (st : AppState) : AppState :=
  {| localStorage := localStorage st; user := u; loading := loading st |}.

Definition setLoading (b : bool) (st : AppState) : AppState :=
  {| localStorage := localStorage st; user := user st; loading := b |}.

(** The [useEffect(..., [])] callback of [App]. *)
Definition bootstrapEffect (st : AppState) : AppState :=
  let token := LocalStorage.getItem "token" (localStorage st) in
  let role := LocalStorage.getItem "role" (localStorage st) in
  let user_id := LocalStorage.getItem "user_id" (localStorage st) in
  let name := LocalStorage.getItem "user_name" (localStorage st) in
  let st1 :=
    if JS.truthy token && JS.truthy role
    then setUser (Some (mkUser token role user_id name)) st
    else st in
  setLoading false st1.

(** The session a fresh process holds once the mount effect has run: the
    spec's [bootstrap()]. *)
Definition bootstrap (store : gmap string string) : option User :=
  user (bootstrapEffect (mount store)).

Definition handleLogin (userData : option User) (st : AppState) : AppState :=
  setUser userData st.

Definition handleLogout (st : AppState) : AppState :=
  let st1 :=
    {| localStorage := LocalStorage.clear (localStorage st);
       user := user st; loading := loading st |} in
  setUser None st1.

(** The operations of the session store, as events on the component. *)
Inductive Op :=
| OpBootstrap
| OpLogin (userData : option User)
| OpLogout.

Definition step (op : Op) (st : AppState) : AppState :=
  match op with
  | OpBootstrap => bootstrapEffect st
  | OpLogin userData => handleLogin userData st
  | OpLogout => handleLogout st
  end.

(** A new process started on the storage the old one left behind. *)
Definition restart (st : AppState) : AppState :=
  bootstrapEffect (mount (localStorage st)).

(** ** The route table *)

Inductive View :=
| Login
| Signup
| StudentDashboard
| TeacherDashboard
| CounselorDashboard
| StudentQuestionnaire
| Chat.

(** What a [<Route element=...>] holds: a page, or [<Navigate to=... />]
    with its [replace] flag. *)
Inductive Element :=
| Render (v : View)
| Navigate (to : string) (replace : bool).

(** [user?.role === lit] *)
Definition roleIs (u : option User) (lit : string) : bool :=
  match u with
  | Some o => JS.strict_eq (role o) lit
  | None => false
  end.

(** The children of [<Routes>], in source order, for the current [user]. *)
Definition routes (u : option User) : list (string * Element) :=
  [ ("/login", if negb (JS.truthy_obj u) then Render Login else Navigate "/" false);
    ("/signup", if negb (JS.truthy_obj u) then Render Signup else Navigate "/" false);
    ("/", match u with
          | Some o =>
              if JS.strict_eq (role o) "student" then Render StudentDashboard
              else if JS.strict_eq (role o) "teacher" then Render TeacherDashboard
              else Render CounselorDashboard
          | None => Navigate "/login" false
          end);
    ("/student", if roleIs u "student" then Render StudentDashboard else Navigate "/" false);
    ("/questionnaire", if roleIs u "student" then Render StudentQuestionnaire else Navigate "/" false);
    ("/teacher", if roleIs u "teacher" then Render TeacherDashboard else Navigate "/" false);
    ("/counselor", if roleIs u "counselor" then Render CounselorDashboard else Navigate "/" false);
    ("/chat", if JS.truthy_obj u then Render Chat else Navigate "/login" false);
    ("*", Navigate "/" true) ].

(** The paths the table declares, without the catch-all. *)
Definition declaredPaths : list string :=
  ["/login"; "/signup"; "/"; "/student"; "/questionnaire"; "/teacher";
   "/counselor"; "/chat"].

(** The case folding of a regular expression with flag [i], on the bytes
    of a string: an ASCII lower-case letter goes to its upper-case letter,
    every other byte stays (a byte outside ASCII never folds to a letter). *)
Definition canonicalize (c : Ascii.ascii) : Ascii.ascii :=
  let n := Ascii.N_of_ascii c in
  if ((97 <=? n) && (n <=? 122))%N then Ascii.ascii_of_N (n - 32) else c.

Fixpoint foldCase (s : string) : string :=
  match s with
  | EmptyString => EmptyString
  | String c rest => String (canonicalize c) (foldCase rest)
  end.

(** [s.replace(/\/*$/, "")]: the string without its trailing slashes. *)
Fixpoint trimSlashes (s : string) : string :=
  match s with
  | EmptyString => EmptyString
  | String c rest =>
      let rest' := trimSlashes rest in
      if Ascii.eqb c "/"%char && String.eqb rest' "" then EmptyString
      else String c rest'
  end.

(** What the comparison of a literal pattern looks at: the string up to
    letter case and trailing slashes. *)
Definition normalize (s : string) : string := trimSlashes (foldCase s).

(** A route pattern against a pathname, as the router does it for a
    [<Route path=...>] without [caseSensitive]: the catch-all ["*"] takes
    every pathname; a literal pattern, compiled to the regular expression
    [^pattern\/*$] with flag [i] after its own trailing slashes are
    dropped, takes the pathnames equal to it up to letter case and trailing
    slashes.  The pathname is the one the router matches against: the
    location's pathname, decoded, with the empty pathname read as "/". *)
Definition matchPath (pattern pathname : string) : bool :=
  if String.eqb pattern "*" then true
  else String.eqb (normalize pattern) (normalize pathname).

(** The element of the first route whose pattern takes the pathname;
    [None] when no route does, where [<Routes>] renders nothing. *)
Fixpoint matchRoutes (rs : list (string * Element)) (pathname : string)
  : option Element :=
  match rs with
  | [] => None
  | (pattern, element) :: rest =>
      if matchPath pattern pathname then Some element
      else matchRoutes rest pathname
  end.

(** The spec's [decide(session, path)]. *)
Definition decideRoute (u : option User) (pathname : string) : option Element :=
  matchRoutes (routes u) pathname.

(** What [<Navigate>] does: the location becomes [to] and the table is
    consulted again with the same [user], until a page is rendered.  The
    result is the pathname reached and the page shown there. *)
Fixpoint follow (fuel : nat) (u : option User) (pathname : string)
  : option (string * View) :=
  match fuel with
  | O => None
  | S n =>
      match decideRoute u pathname with
      | Some (Render v) => Some (pathname, v)
      | Some (Navigate to _) => follow n u to
      | None => None
      end
  end.

(** The paths whose route compares [user?.role] with one role. *)
Definition rolePaths : list string :=
  ["/student"; "/questionnaire"; "/teacher"; "/counselor"].

(** Whether a decision is [<Navigate>] to the given path. *)
Definition redirectsTo (d : option Element) (target : string) : bool :=
  match d with
  | Some (Navigate to _) => String.eqb to target
  | _ => false
  end.

(** All four fields of a session object hold a string. *)
Definition fullyPopulated (o : User) : bool :=
  JS.truthy_obj (token o) && JS.truthy_obj (role o)
  && JS.truthy_obj (user_id o) && JS.truthy_obj (name o).

(** ** Sample data *)

Module Samples.

Definition ann_store : gmap string string :=
  <["token" := "abc"]> (<["role" := "teacher"]>
    (<["user_id" := "7"]> (<["user_name" := "Ann"]> ∅))).

Definition ann : User :=
  mkUser (Some "abc") (Some "teacher") (Some "7") (Some "Ann").

(** A token and a role, but neither [user_id] nor [user_name]. *)
Definition bare_store : gmap string string :=
  <["token" := "abc"]> (<["role" := "teacher"]> ∅).

Definition bare : User := mkUser (Some "abc") (Some "teacher") None None.

Definition sam : User :=
  mkUser (Some "t0") (Some "student") (Some "3") (Some "Sam").

Definition kim : User :=
  mkUser (Some "t1") (Some "counselor") (Some "4") (Some "Kim").

(** A role the table never names. *)
Definition root : User :=
  mkUser (Some "t2") (Some "admin") (Some "0") (Some "Root").

(** Same role as [ann], every other field different. *)
Definition bob : User :=
  mkUser (Some "xyz") (Some "teacher") (Some "9") (Some "Bob").

End Samples.

(** ** What [App] returns *)

(** The props [<Sidebar>] receives from the session object; its [onLogout]
    is always [handleLogout]. *)
Record SidebarProps := mkSidebar {
  currentRole : option string;
  userName : option string
}.

(** The tree [App] returns: the loading placeholder, or the shell with the
    optional sidebar, the class of [<main>] and the content of [<Routes>]
    for the current location. *)
Inductive Screen :=
| LoadingScreen
| Shell (sidebar : option SidebarProps) (mainClass : string)
        (content : option Element).

Definition App (st : AppState) (pathname : string) : Screen :=
  if loading st then LoadingScreen
  else
    Shell
      (match user st with
       | Some o => Some {| currentRole := role o; userName := name o |}
       | None => None
       end)
      (if JS.truthy_obj (user st) then "main-content" else "")
      (decideRoute (user st) pathname).

(** A sequence of session-store events, oldest first. *)
Definition run (ops : list Op) (st : AppState) : AppState :=
  foldl (λ acc op, step op acc) st ops.

(** The pages meant for visitors without a session. *)
Definition publicView (v : View) : bool :=
  match v with
  | Login | Signup => true
  | _ => false
  end.

(** ** The development-server and build configuration, [vite.config.js] *)

Module ViteConfig.

(** [s.slice(n)] *)
Fixpoint slice (n : nat) (s : string) : string :=
  match n, s with
  | O, _ => s
  | S n', String _ rest => slice n' rest
  | S _, EmptyString => EmptyString
  end.

(** [(path) => path.replace(/^\/api/, '')]: the pattern is anchored at the
    start and is not global, so at most the leading "/api" is removed. *)
Definition rewrite (path : string) : string :=
  if String.prefix "/api" path then slice 4 path else path.

(** [build.sourcemap] *)
Definition sourcemap (mode : string) : bool := String.eqb mode "development".

(** [build.terserOptions.compress.drop_console] *)
Definition drop_console (mode : string) : bool := String.eqb mode "production".

End ViteConfig.

(** The role-protected routes read as data: path, required role, page. *)
Definition roleRoutes : list (string * string * View) :=
  [ ("/student", "student", StudentDashboard);
    ("/questionnaire", "student", StudentQuestionnaire);
    ("/teacher", "teacher", TeacherDashboard);
    ("/counselor", "counselor", CounselorDashboard) ].

(** The four keys the mount effect reads. *)
Definition sessionKeys : list string :=
  ["token"; "role"; "user_id"; "user_name"].

(** What licenses each page the table renders for a present session. *)
Definition licensed (o : User) (v : View) : Prop :=
  match v with
  | Login | Signup => False
  | StudentDashboard | StudentQuestionnaire => role o = Some "student"
  | TeacherDashboard => role o = Some "teacher"
  | CounselorDashboard =>
      role o ≠ Some "student" ∧ role o ≠ Some "teacher"
  | Chat => True
  end.

(** ** Truthiness *)

Lemma truthy_present_nonempty (v : option string) :
  JS.truthy v = true ↔ JS.present_nonempty v.
Proof.
  unfold JS.present_nonempty. destruct v as [s|]; simpl.
  - rewrite negb_true_iff, String.eqb_neq. split.
    + intros Hs. exists s. split; [reflexivity | exact Hs].
    + intros (s' & Heq & Hs'). congruence.
  - split; [discriminate | intros (s & Heq & _); discriminate].
Qed.

(** ** The mount effect *)

(** The mount effect as a function of the store alone. *)
Lemma bootstrap_unfold (store : gmap string string) :
  bootstrap store =
    if JS.truthy (store !! "token") && JS.truthy (store !! "role")
    then Some (mkUser (store !! "token") (store !! "role")
                      (store !! "user_id") (store !! "user_name"))
    else None.
Proof.
  unfold bootstrap, bootstrapEffect, LocalStorage.getItem. simpl.
  destruct (JS.truthy (store !! "token") && JS.truthy (store !! "role"));
    reflexivity.
Qed.

Lemma bootstrapEffect_localStorage (st : AppState) :
  localStorage (bootstrapEffect st) = localStorage st.
Proof.
  unfold bootstrapEffect.
  destruct (JS.truthy _ && JS.truthy _); reflexivity.
Qed.

Lemma bootstrapEffect_loading (st : AppState) :
  loading (bootstrapEffect st) = false.
Proof. reflexivity. Qed.

(** ** Matching against a table that ends in the catch-all *)

Lemma matchPath_catch_all (pathname : string) : matchPath "*" pathname = true.
Proof. reflexivity. Qed.



Lemma matchPath_literal (pattern pathname : string) :
  pattern ≠ "*" →
  matchPath pattern pathname
  = String.eqb (normalize pattern) (normalize pathname).
Proof.
  intros Hstar. unfold matchPath. apply String.eqb_neq in Hstar.
  rewrite Hstar. reflexivity.
Qed.

(** Two literal patterns that take the same pathname agree up to letter
    case and trailing slashes. *)
Lemma matchPath_exclusive (pattern1 pattern2 pathname : string) :
  pattern1 ≠ "*" → pattern2 ≠ "*" →
  matchPath pattern1 pathname = true → matchPath pattern2 pathname = true →
  normalize pattern1 = normalize pattern2.
Proof.
  intros H1 H2. rewrite !matchPath_literal by assumption.
  rewrite !String.eqb_eq. congruence.
Qed.

(** Letter case and trailing slashes of the pathname play no part; an
    extra letter, or another segment, does. *)
Lemma matchPath_samples :
  matchPath "/teacher" "/TEACHER" = true
  ∧ matchPath "/teacher" "/teacher/" = true
  ∧ matchPath "/signup" "/SignUp//" = true
  ∧ matchPath "/" "/" = true
  ∧ matchPath "/teacher" "/teachers" = false
  ∧ matchPath "/teacher" "/teacher/7" = false
  ∧ matchPath "/" "/teacher" = false.
Proof. repeat split. Qed.

(** The table is its eight literal routes followed by the catch-all. *)
Lemma routes_split (u : option User) :
  routes u = (take 8 (routes u) ++ [("*", Navigate "/" true)])%list.
Proof. reflexivity. Qed.


(** The table looks at nothing of a session object but its [role]. *)
Lemma routes_role_only (u1 u2 : User) :
  role u1 = role u2 → routes (Some u1) = routes (Some u2).
Proof. intros Hrole. unfold routes, roleIs. simpl. rewrite Hrole. reflexivity. Qed.

Lemma decideRoute_root_anonymous :
  decideRoute None "/" = Some (Navigate "/login" false).
Proof. reflexivity. Qed.



(** The decision for a pathname is the decision for the declared pattern
    that takes it, or the catch-all's when none does. *)
Ltac in_declared :=
  unfold declaredPaths; rewrite !elem_of_cons;
  repeat ((left; reflexivity) || right).

Ltac first_match pathname :=
  unfold decideRoute, routes; cbn [matchRoutes];
  repeat match goal with
         | H : matchPath _ pathname = _ |- _ => rewrite H
         end;
  reflexivity.

Ltac try_pattern pat pathname :=
  let H := fresh "Hm" in
  destruct (matchPath pat pathname) eqn:H;
  [ left; exists pat;
    split; [in_declared | split; [exact H | first_match pathname]]
  | ].

Lemma decideRoute_cases (u : option User) (pathname : string) :
  (∃ pattern, pattern ∈ declaredPaths
              ∧ matchPath pattern pathname = true
              ∧ decideRoute u pathname = decideRoute u pattern)
  ∨ ((∀ pattern, pattern ∈ declaredPaths →
                 matchPath pattern pathname = false)
     ∧ decideRoute u pathname = Some (Navigate "/" true)).
Proof.
  try_pattern "/login" pathname.
  try_pattern "/signup" pathname.
  try_pattern "/" pathname.
  try_pattern "/student" pathname.
  try_pattern "/questionnaire" pathname.
  try_pattern "/teacher" pathname.
  try_pattern "/counselor" pathname.
  try_pattern "/chat" pathname.
  right. split; [| first_match pathname].
  intros pattern Hin. unfold declaredPaths in Hin.
  repeat (apply elem_of_cons in Hin as [-> | Hin]); try assumption.
  apply elem_of_nil in Hin. contradiction.
Qed.

(** Case analysis on a pathname: the eight declared patterns that may take
    it, each with the table evaluated, then the catch-all. *)
Ltac path_cases u pathname :=
  let pat := fresh "pattern" in
  let Hin := fresh "Hin" in
  let Hm := fresh "Hmatch" in
  let Hd := fresh "Hd" in
  destruct (decideRoute_cases u pathname) as [(pat & Hin & Hm & Hd) | [Hm Hd]];
  [ rewrite Hd; clear Hd; unfold declaredPaths in Hin;
    repeat (apply elem_of_cons in Hin as [-> | Hin]);
    [ .. | apply elem_of_nil in Hin; contradiction ];
    unfold decideRoute; simpl
  | rewrite Hd; clear Hd ].


(** ** Redirects settle *)



(** ** Anonymous visitors on role paths *)

(** C1 (as stated, refuted): with no session, the route of ["/teacher"]
    holds [<Navigate to="/" />], not a redirect to ["/login"]. *)
Lemma anonymous_teacher_navigates_home :
  decideRoute None "/teacher" = Some (Navigate "/" false)
  ∧ redirectsTo (decideRoute None "/teacher") "/login" = false.
Proof. split; reflexivity. Qed.

(** C1 (amended): with no session, every role path ("/student",
    "/questionnaire", "/teacher", "/counselor") decides [<Navigate to="/" />];
    the root path then decides [<Navigate to="/login" />], so following the
    redirects ends on the login page at ["/login"]. *)
Theorem anonymous_role_path_reaches_login (pathname : string) :
  pathname ∈ rolePaths →
  decideRoute None pathname = Some (Navigate "/" false)
  ∧ decideRoute None "/" = Some (Navigate "/login" false)
  ∧ follow 3 None pathname = Some ("/login", Login).
Proof.
  unfold rolePaths. intros Hin.
  repeat (apply elem_of_cons in Hin as [-> | Hin]);
    try (repeat split; reflexivity).
  apply elem_of_nil in Hin. contradiction.
Qed.

Lemma anonymous_role_path_reaches_login_witness :
  "/teacher" ∈ rolePaths
  ∧ decideRoute None "/teacher" = Some (Navigate "/" false)
  ∧ decideRoute None "/" = Some (Navigate "/login" false)
  ∧ follow 3 None "/teacher" = Some ("/login", Login).
Proof.
  assert (Hin : "/teacher" ∈ rolePaths).
  { unfold rolePaths. do 2 apply elem_of_cons, or_intror.
    apply elem_of_cons, or_introl. reflexivity. }
  split; [exact Hin | apply (anonymous_role_path_reaches_login "/teacher" Hin)].
Defined.

(** ** Bootstrap *)

(** C2: [bootstrap] yields a session exactly when the stored token and the
    stored role are both present and non-empty; in every other state of the
    store it yields no session.  It is a total function of the store: no
    store makes it fail. *)
Theorem bootstrap_some_iff_token_and_role (store : gmap string string) :
  (is_Some (bootstrap store) ↔
     JS.present_nonempty (store !! "token")
     ∧ JS.present_nonempty (store !! "role"))
  ∧ (bootstrap store = None ↔
       ¬ (JS.present_nonempty (store !! "token")
          ∧ JS.present_nonempty (store !! "role"))).
Proof.
  rewrite bootstrap_unfold, <- !truthy_present_nonempty.
  destruct (JS.truthy (store !! "token")), (JS.truthy (store !! "role"));
    simpl; rewrite is_Some_alt; intuition congruence.
Qed.

Lemma bootstrap_some_iff_token_and_role_witness :
  is_Some (bootstrap Samples.ann_store)
  ∧ bootstrap (delete "token" Samples.ann_store) = None.
Proof.
  split.
  - apply (proj1 (bootstrap_some_iff_token_and_role Samples.ann_store)).
    split; eexists; (split; [vm_compute; reflexivity | discriminate]).
  - apply (proj2 (bootstrap_some_iff_token_and_role
                    (delete "token" Samples.ann_store))).
    intros [(s & Hs & _) _]. vm_compute in Hs. discriminate.
Defined.

(** C3 (as stated, refuted): a store with a token and a role but neither
    [user_id] nor [user_name] bootstraps to a session whose [user_id] and
    [name] are [null]. *)
Lemma bootstrap_partial_session :
  bootstrap Samples.bare_store = Some Samples.bare
  ∧ fullyPopulated Samples.bare = false.
Proof. split; vm_compute; reflexivity. Qed.

(** C3 (amended): whenever [bootstrap] produces a session, its token and
    role are present and non-empty, and its four fields are what the store
    holds under "token", "role", "user_id" and "user_name" (the last two
    possibly absent); a store without a role yields no session, whatever
    its token. *)
Theorem bootstrap_session_fields (store : gmap string string) (o : User) :
  bootstrap store = Some o →
  (JS.present_nonempty (token o) ∧ JS.present_nonempty (role o)
   ∧ token o = store !! "token" ∧ role o = store !! "role"
   ∧ user_id o = store !! "user_id" ∧ name o = store !! "user_name")
  ∧ bootstrap (delete "role" store) = None.
Proof.
  rewrite !bootstrap_unfold, lookup_delete_eq.
  destruct (JS.truthy (store !! "token")) eqn:Htok;
    destruct (JS.truthy (store !! "role")) eqn:Hrole; simpl; try discriminate.
  intros [= <-]. simpl.
  apply truthy_present_nonempty in Htok, Hrole.
  rewrite andb_false_r. repeat split; assumption || reflexivity.
Qed.

Lemma bootstrap_session_fields_witness :
  bootstrap Samples.bare_store = Some Samples.bare
  ∧ (JS.present_nonempty (token Samples.bare)
     ∧ JS.present_nonempty (role Samples.bare)
     ∧ token Samples.bare = Samples.bare_store !! "token"
     ∧ role Samples.bare = Samples.bare_store !! "role"
     ∧ user_id Samples.bare = Samples.bare_store !! "user_id"
     ∧ name Samples.bare = Samples.bare_store !! "user_name")
  ∧ bootstrap (delete "role" Samples.bare_store) = None.
Proof.
  assert (Hboot : bootstrap Samples.bare_store = Some Samples.bare)
    by (vm_compute; reflexivity).
  split; [exact Hboot |].
  apply (bootstrap_session_fields Samples.bare_store Samples.bare Hboot).
Defined.

(** ** The decision table, route by route *)

(** C4: for a present session the root path renders the dashboard of its
    role: the student dashboard for "student", the teacher dashboard for
    "teacher", and the counselor dashboard for every other role value. *)
Theorem root_renders_dashboard_of_role (o : User) :
  (role o = Some "student" →
   decideRoute (Some o) "/" = Some (Render StudentDashboard))
  ∧ (role o = Some "teacher" →
     decideRoute (Some o) "/" = Some (Render TeacherDashboard))
  ∧ (role o ≠ Some "student" → role o ≠ Some "teacher" →
     decideRoute (Some o) "/" = Some (Render CounselorDashboard)).
Proof.
  unfold decideRoute. simpl. unfold JS.strict_eq.
  destruct (role o) as [r|].
  - destruct (String.eqb_spec r "student") as [-> | Hs].
    + repeat split; [discriminate | congruence].
    + destruct (String.eqb_spec r "teacher") as [-> | Ht];
        repeat split; congruence.
  - repeat split; discriminate.
Qed.

Lemma root_renders_dashboard_of_role_witness :
  decideRoute (Some Samples.sam) "/" = Some (Render StudentDashboard)
  ∧ decideRoute (Some Samples.ann) "/" = Some (Render TeacherDashboard)
  ∧ decideRoute (Some Samples.kim) "/" = Some (Render CounselorDashboard)
  ∧ decideRoute (Some Samples.root) "/" = Some (Render CounselorDashboard).
Proof.
  split; [| split; [| split]].
  - apply (proj1 (root_renders_dashboard_of_role Samples.sam)). reflexivity.
  - apply (proj1 (proj2 (root_renders_dashboard_of_role Samples.ann))).
    reflexivity.
  - apply (proj2 (proj2 (root_renders_dashboard_of_role Samples.kim)));
      discriminate.
  - apply (proj2 (proj2 (root_renders_dashboard_of_role Samples.root)));
      discriminate.
Defined.

(** C5: on the public paths "/login" and "/signup", no session renders the
    page of the path, and every present session is sent to "/". *)
Theorem public_paths_decision (o : User) :
  decideRoute None "/login" = Some (Render Login)
  ∧ decideRoute None "/signup" = Some (Render Signup)
  ∧ decideRoute (Some o) "/login" = Some (Navigate "/" false)
  ∧ decideRoute (Some o) "/signup" = Some (Navigate "/" false).
Proof. repeat split; reflexivity. Qed.

(** C6: "/chat" renders the chat page for every present session, whatever
    its role, and sends a visitor without session to "/login". *)
Theorem chat_any_authenticated (o : User) :
  decideRoute (Some o) "/chat" = Some (Render Chat)
  ∧ decideRoute None "/chat" = Some (Navigate "/login" false).
Proof. split; reflexivity. Qed.



(** ** Logout and login *)

(** C8: logging out twice leaves the state that logging out once leaves:
    no session and an empty store, so no persisted field survives; in that
    state the root path is sent to "/login". *)
Theorem handleLogout_idempotent (st : AppState) :
  handleLogout (handleLogout st) = handleLogout st
  ∧ user (handleLogout st) = None
  ∧ (∀ key, LocalStorage.getItem key (localStorage (handleLogout st)) = None)
  ∧ decideRoute (user (handleLogout (handleLogout st))) "/"
    = Some (Navigate "/login" false).
Proof.
  split; [reflexivity | split; [reflexivity | split; [| reflexivity]]].
  intros key. unfold LocalStorage.getItem, handleLogout, LocalStorage.clear.
  simpl. apply lookup_empty.
Qed.

(** C9: on every pathname, two present sessions with equal [role] get the
    same decision: the token, the user id and the name play no part. *)
Theorem decideRoute_depends_on_role_only (pathname : string) (o1 o2 : User) :
  role o1 = role o2 →
  decideRoute (Some o1) pathname = decideRoute (Some o2) pathname.
Proof.
  intros Hrole. unfold decideRoute.
  rewrite (routes_role_only o1 o2 Hrole). reflexivity.
Qed.

Lemma decideRoute_depends_on_role_only_witness :
  role Samples.ann = role Samples.bob
  ∧ decideRoute (Some Samples.ann) "/teacher"
    = decideRoute (Some Samples.bob) "/teacher".
Proof.
  split; [reflexivity |].
  apply (decideRoute_depends_on_role_only "/teacher" Samples.ann Samples.bob).
  reflexivity.
Defined.

(** C10: [handleLogin] changes the in-memory session only: the store is
    left as it was, so a new process bootstrapped afterwards is the one that
    would have been bootstrapped before.  Of the three operations of the
    session store only logout changes the store, which it empties. *)
Theorem handleLogin_preserves_storage (userData : option User) (st : AppState) :
  localStorage (handleLogin userData st) = localStorage st
  ∧ user (handleLogin userData st) = userData
  ∧ restart (handleLogin userData st) = restart st
  ∧ localStorage (restart (handleLogin userData st)) = localStorage st
  ∧ (∀ op, localStorage (step op st)
           = match op with
             | OpLogout => ∅
             | OpBootstrap | OpLogin _ => localStorage st
             end).
Proof.
  repeat split.
  - unfold restart. rewrite bootstrapEffect_localStorage. reflexivity.
  - intros [| ud |]; simpl; [apply bootstrapEffect_localStorage | reflexivity ..].
Qed.

(** ** Further properties of the route table *)

Lemma strict_eq_true (v : option string) (lit : string) :
  JS.strict_eq v lit = true ↔ v = Some lit.
Proof.
  destruct v as [s|]; simpl.
  - rewrite String.eqb_eq. split; [intros -> | intros [= ->]]; reflexivity.
  - split; discriminate.
Qed.

Lemma strict_eq_false (v : option string) (lit : string) :
  JS.strict_eq v lit = false ↔ v ≠ Some lit.
Proof.
  rewrite <- strict_eq_true. destruct (JS.strict_eq v lit); split;
    congruence.
Qed.

Ltac role_cases :=
  repeat match goal with
         | |- context [JS.strict_eq ?r ?l] =>
             let E := fresh "Erole" in destruct (JS.strict_eq r l) eqn:E
         end.


(** The page navigation ends on is the page the table holds for the
    pathname it ends on. *)
Lemma follow_renders (n : nat) (u : option User) (pathname path : string)
    (v : View) :
  follow n u pathname = Some (path, v) →
  decideRoute u path = Some (Render v).
Proof.
  revert pathname. induction n as [|n IH]; intros pathname; [discriminate |].
  cbn [follow].
  destruct (decideRoute u pathname) as [[v' | to rep] |] eqn:Hd;
    [| apply IH | discriminate].
  intros [= <- <-]. exact Hd.
Qed.

(** X1: for a present session each role path renders its page exactly when
    the session's role is the role of the path, and navigates to "/" for
    every other role value. *)
Theorem role_route_present_session (o : User) (pathname lit : string) (v : View) :
  (pathname, lit, v) ∈ roleRoutes →
  (role o = Some lit → decideRoute (Some o) pathname = Some (Render v))
  ∧ (role o ≠ Some lit →
     decideRoute (Some o) pathname = Some (Navigate "/" false)).
Proof.
  unfold roleRoutes. intros Hin.
  repeat (apply elem_of_cons in Hin as [[= -> -> ->] | Hin]);
    try (apply elem_of_nil in Hin; contradiction);
    unfold decideRoute; simpl;
    (split; intros Hrole;
     [ apply strict_eq_true in Hrole | apply strict_eq_false in Hrole ];
     rewrite Hrole; reflexivity).
Qed.

Lemma role_route_present_session_witness :
  ("/teacher", "teacher", TeacherDashboard) ∈ roleRoutes
  ∧ decideRoute (Some Samples.ann) "/teacher" = Some (Render TeacherDashboard)
  ∧ decideRoute (Some Samples.sam) "/teacher" = Some (Navigate "/" false).
Proof.
  assert (Hin : ("/teacher", "teacher", TeacherDashboard) ∈ roleRoutes).
  { unfold roleRoutes. do 2 apply elem_of_cons, or_intror.
    apply elem_of_cons, or_introl. reflexivity. }
  split; [exact Hin | split].
  - apply (proj1 (role_route_present_session Samples.ann _ _ _ Hin)).
    reflexivity.
  - apply (proj2 (role_route_present_session Samples.sam _ _ _ Hin)).
    discriminate.
Defined.


(** What the table renders for a visitor without session. *)
Lemma decideRoute_anonymous_render (pathname : string) (v : View) :
  decideRoute None pathname = Some (Render v) →
  (matchPath "/login" pathname = true ∧ v = Login)
  ∨ (matchPath "/signup" pathname = true ∧ v = Signup).
Proof.
  path_cases (@None User) pathname; intros [= <-];
    [left | right]; (split; [assumption | reflexivity]).
Qed.

Lemma decideRoute_present_render (o : User) (pathname : string) (v : View) :
  decideRoute (Some o) pathname = Some (Render v) → licensed o v.
Proof.
  path_cases (Some o) pathname; unfold roleIs; role_cases;
    intros [= <-]; simpl;
    repeat match goal with
           | H : JS.strict_eq _ _ = true |- _ => apply strict_eq_true in H
           | H : JS.strict_eq _ _ = false |- _ => apply strict_eq_false in H
           end;
    try exact I; try assumption; try (split; assumption);
    split; congruence.
Qed.



(** X4: whatever a present session is shown, at the requested pathname or
    after redirects, its role licenses it: never the login or signup page;
    the student dashboard and the questionnaire only for role "student";
    the teacher dashboard only for role "teacher"; the counselor dashboard
    only for a role that is neither of the two. *)
Theorem present_session_sees_licensed_pages (n : nat) (o : User)
    (pathname path : string) (v : View) :
  follow n (Some o) pathname = Some (path, v) → licensed o v.
Proof.
  intros Hf. apply follow_renders in Hf.
  apply (decideRoute_present_render o path v Hf).
Qed.

Lemma present_session_sees_licensed_pages_witness :
  follow 3 (Some Samples.sam) "/teacher" = Some ("/", StudentDashboard)
  ∧ licensed Samples.sam StudentDashboard.
Proof.
  assert (Hf : follow 3 (Some Samples.sam) "/teacher"
               = Some ("/", StudentDashboard)) by reflexivity.
  split; [exact Hf |].
  apply (present_session_sees_licensed_pages 3 Samples.sam "/teacher" "/" _ Hf).
Defined.

(** X5: redirects have two destinations only.  A present session ends on
    the pathname it asked for or on "/"; a visitor without session ends on
    the pathname asked for or on "/login". *)
Theorem navigation_destinations (u : option User) (pathname path : string)
    (v : View) :
  follow 3 u pathname = Some (path, v) →
  path = pathname ∨ path = (if JS.truthy_obj u then "/" else "/login").
Proof.
  cbn [follow]. path_cases u pathname; destruct u as [o|];
    cbn [follow]; unfold decideRoute, roleIs; simpl; role_cases;
    intros [= <- <-]; (left; reflexivity) || (right; reflexivity).
Qed.

Lemma navigation_destinations_witness :
  "/" = "/teacher" ∨ "/" = (if JS.truthy_obj (Some Samples.sam) then "/" else "/login").
Proof.
  apply (navigation_destinations (Some Samples.sam) "/teacher" "/" StudentDashboard).
  reflexivity.
Defined.

(** X6: a session whose role is neither "student" nor "teacher" (the
    counselor, or a role the table never names) ends on the counselor
    dashboard from every role path. *)
Theorem other_role_falls_back_to_counselor (o : User) (pathname : string) :
  role o ≠ Some "student" → role o ≠ Some "teacher" →
  pathname ∈ rolePaths →
  ∃ path, follow 3 (Some o) pathname = Some (path, CounselorDashboard)
          ∧ (path = pathname ∨ path = "/").
Proof.
  intros Hs Ht Hin. apply strict_eq_false in Hs, Ht.
  unfold rolePaths in Hin.
  repeat (apply elem_of_cons in Hin as [-> | Hin]);
    try (apply elem_of_nil in Hin; contradiction);
    cbn [follow]; unfold decideRoute, roleIs; simpl; rewrite ?Hs, ?Ht;
    role_cases; simpl; rewrite ?Hs, ?Ht;
    eexists; (split; [reflexivity |]); (left; reflexivity) || (right; reflexivity).
Qed.

Lemma other_role_falls_back_to_counselor_witness :
  ∃ path, follow 3 (Some Samples.root) "/counselor"
          = Some (path, CounselorDashboard)
          ∧ (path = "/counselor" ∨ path = "/").
Proof.
  apply (other_role_falls_back_to_counselor Samples.root "/counselor").
  - discriminate.
  - discriminate.
  - unfold rolePaths. do 3 apply elem_of_cons, or_intror.
    apply elem_of_cons, or_introl. reflexivity.
Defined.

(** ** Sequences of session-store events *)

Lemma run_cons (op : Op) (ops : list Op) (st : AppState) :
  run (op :: ops) st = run ops (step op st).
Proof. reflexivity. Qed.

Lemma step_loading (op : Op) (st : AppState) :
  loading (step op st)
  = match op with OpBootstrap => false | _ => loading st end.
Proof. destruct op; reflexivity. Qed.

Lemma step_localStorage (op : Op) (st : AppState) :
  localStorage (step op st)
  = match op with OpLogout => ∅ | _ => localStorage st end.
Proof.
  destruct op; simpl; [apply bootstrapEffect_localStorage | reflexivity ..].
Qed.

Lemma run_loading_false (ops : list Op) (st : AppState) :
  loading st = false → loading (run ops st) = false.
Proof.
  revert st. induction ops as [|op ops IH]; intros st Hst; [exact Hst |].
  rewrite run_cons. apply IH. rewrite step_loading.
  destruct op; [reflexivity | exact Hst ..].
Qed.

Lemma run_loading_no_bootstrap (ops : list Op) (st : AppState) :
  OpBootstrap ∉ ops → loading (run ops st) = loading st.
Proof.
  revert st. induction ops as [|op ops IH]; intros st Hout; [reflexivity |].
  apply not_elem_of_cons in Hout as [Hne Hout].
  rewrite run_cons, (IH _ Hout), step_loading.
  destruct op; [contradiction | reflexivity ..].
Qed.

Lemma run_loading_bootstrap (ops : list Op) (st : AppState) :
  OpBootstrap ∈ ops → loading (run ops st) = false.
Proof.
  revert st. induction ops as [|op ops IH]; intros st Hin.
  - apply elem_of_nil in Hin. contradiction.
  - rewrite run_cons. apply elem_of_cons in Hin as [<- | Hin].
    + apply run_loading_false. reflexivity.
    + apply IH. exact Hin.
Qed.

(** X7: a fresh process shows the loading placeholder, at every pathname,
    until the mount effect has run; once it has run, no login or logout
    brings the placeholder back and the shell with the routed content is
    shown. *)
Theorem loading_until_bootstrap (ops : list Op) (store : gmap string string)
    (pathname : string) :
  (OpBootstrap ∉ ops → App (run ops (mount store)) pathname = LoadingScreen)
  ∧ (OpBootstrap ∈ ops →
     ∃ sidebar cls,
       App (run ops (mount store)) pathname
       = Shell sidebar cls
           (decideRoute (user (run ops (mount store))) pathname)).
Proof.
  unfold App. split; intros Hops.
  - rewrite (run_loading_no_bootstrap _ _ Hops). reflexivity.
  - rewrite (run_loading_bootstrap _ _ Hops). eexists _, _. reflexivity.
Qed.

Lemma loading_until_bootstrap_witness :
  App (run [] (mount Samples.ann_store)) "/teacher" = LoadingScreen
  ∧ ∃ sidebar cls,
      App (run [OpBootstrap; OpLogout] (mount Samples.ann_store)) "/teacher"
      = Shell sidebar cls
          (decideRoute
             (user (run [OpBootstrap; OpLogout] (mount Samples.ann_store)))
             "/teacher").
Proof.
  split.
  - apply (proj1 (loading_until_bootstrap [] Samples.ann_store "/teacher")).
    apply not_elem_of_nil.
  - apply (proj2 (loading_until_bootstrap [OpBootstrap; OpLogout]
                    Samples.ann_store "/teacher")).
    apply elem_of_cons, or_introl. reflexivity.
Defined.

Lemma run_localStorage_keep (ops : list Op) (st : AppState) :
  OpLogout ∉ ops → localStorage (run ops st) = localStorage st.
Proof.
  revert st. induction ops as [|op ops IH]; intros st Hout; [reflexivity |].
  apply not_elem_of_cons in Hout as [Hne Hout].
  rewrite run_cons, (IH _ Hout), step_localStorage.
  destruct op; [reflexivity .. | contradiction].
Qed.

Lemma run_localStorage_empty (ops : list Op) (st : AppState) :
  localStorage st = ∅ → localStorage (run ops st) = ∅.
Proof.
  revert st. induction ops as [|op ops IH]; intros st Hst; [exact Hst |].
  rewrite run_cons. apply IH. rewrite step_localStorage.
  destruct op; [exact Hst .. | reflexivity].
Qed.

Lemma run_localStorage_logout (ops : list Op) (st : AppState) :
  OpLogout ∈ ops → localStorage (run ops st) = ∅.
Proof.
  revert st. induction ops as [|op ops IH]; intros st Hin.
  - apply elem_of_nil in Hin. contradiction.
  - rewrite run_cons. apply elem_of_cons in Hin as [<- | Hin].
    + apply run_localStorage_empty. reflexivity.
    + apply IH. exact Hin.
Qed.

(** X8: the component never writes to [localStorage]: after any sequence
    of bootstraps, logins and logouts the store is the one it started with
    when no logout occurred, and empty when one did. *)
Theorem run_localStorage (ops : list Op) (st : AppState) :
  (OpLogout ∉ ops → localStorage (run ops st) = localStorage st)
  ∧ (OpLogout ∈ ops → localStorage (run ops st) = ∅).
Proof.
  split; [apply run_localStorage_keep | apply run_localStorage_logout].
Qed.

Lemma run_localStorage_witness :
  localStorage (run [OpBootstrap; OpLogin (Some Samples.bob)]
                    (mount Samples.ann_store)) = Samples.ann_store
  ∧ localStorage (run [OpBootstrap; OpLogout; OpLogin (Some Samples.bob)]
                      (mount Samples.ann_store)) = ∅.
Proof.
  split.
  - apply (proj1 (run_localStorage [OpBootstrap; OpLogin (Some Samples.bob)]
                    (mount Samples.ann_store))).
    rewrite !not_elem_of_cons.
    split; [discriminate | split; [discriminate | apply not_elem_of_nil]].
  - apply (proj2 (run_localStorage
                    [OpBootstrap; OpLogout; OpLogin (Some Samples.bob)]
                    (mount Samples.ann_store))).
    apply elem_of_cons, or_intror, elem_of_cons, or_introl. reflexivity.
Defined.

(** X9: logout is durable.  After a logout, however many times the mount
    effect runs again, the session stays absent as long as nobody logs in;
    and a process restarted after any sequence that contains a logout
    starts without session, whatever logins followed it. *)
Theorem logout_is_durable (ops : list Op) (st : AppState) :
  ((∀ userData, OpLogin userData ∉ ops) →
   user (run (OpLogout :: ops) st) = None)
  ∧ (OpLogout ∈ ops → user (restart (run ops st)) = None).
Proof.
  split.
  - rewrite run_cons.
    assert (Hinv : ∀ ops st,
               localStorage st = ∅ → user st = None →
               (∀ userData, OpLogin userData ∉ ops) →
               user (run ops st) = None).
    { clear. intros ops. induction ops as [|op ops IH];
        intros st Hstore Huser Hops; [exact Huser |].
      rewrite run_cons.
      assert (Hrest : ∀ userData, OpLogin userData ∉ ops).
      { intros ud Hin. apply (Hops ud). apply elem_of_cons. right. exact Hin. }
      destruct op as [| ud |].
      - apply IH; [| | exact Hrest].
        + rewrite step_localStorage. exact Hstore.
        + cbn [step]. unfold bootstrapEffect, LocalStorage.getItem.
          rewrite Hstore, !lookup_empty. simpl. exact Huser.
      - exfalso. apply (Hops ud). apply elem_of_cons. left. reflexivity.
      - apply IH; [reflexivity | reflexivity | exact Hrest]. }
    apply Hinv; reflexivity.
  - intros Hin. unfold restart.
    rewrite (run_localStorage_logout ops st Hin). reflexivity.
Qed.

Lemma logout_is_durable_witness :
  user (run [OpLogout; OpBootstrap; OpBootstrap]
            (handleLogin (Some Samples.ann) (mount Samples.ann_store))) = None
  ∧ user (restart (run [OpLogout; OpLogin (Some Samples.bob)]
                       (mount Samples.ann_store))) = None.
Proof.
  split.
  - apply (proj1 (logout_is_durable [OpBootstrap; OpBootstrap]
                    (handleLogin (Some Samples.ann) (mount Samples.ann_store)))).
    intros ud. rewrite !not_elem_of_cons.
    split; [discriminate | split; [discriminate | apply not_elem_of_nil]].
  - apply (proj2 (logout_is_durable [OpLogout; OpLogin (Some Samples.bob)]
                    (mount Samples.ann_store))).
    apply elem_of_cons, or_introl. reflexivity.
Defined.

(** ** Further properties of the mount effect *)

(** X10: the mount effect reads the four session keys and nothing else:
    two stores that agree on "token", "role", "user_id" and "user_name"
    bootstrap to the same session, whatever else they hold. *)
Theorem bootstrap_reads_session_keys_only (store1 store2 : gmap string string) :
  (∀ key, key ∈ sessionKeys → store1 !! key = store2 !! key) →
  bootstrap store1 = bootstrap store2.
Proof.
  intros Hagree. rewrite !bootstrap_unfold.
  assert (Hk : ∀ key, key ∈ sessionKeys → store1 !! key = store2 !! key)
    by exact Hagree.
  unfold sessionKeys in Hk.
  rewrite (Hk "token"), (Hk "role"), (Hk "user_id"), (Hk "user_name");
    [reflexivity | ..];
    rewrite !elem_of_cons; tauto.
Qed.

Lemma bootstrap_reads_session_keys_only_witness :
  bootstrap (<["theme" := "dark"]> Samples.ann_store)
  = bootstrap Samples.ann_store.
Proof.
  apply (bootstrap_reads_session_keys_only
           (<["theme" := "dark"]> Samples.ann_store) Samples.ann_store).
  intros key Hkey. apply lookup_insert_ne.
  intros <-. revert Hkey. unfold sessionKeys.
  rewrite !elem_of_cons, elem_of_nil. intuition discriminate.
Defined.

(** X11: a session persisted under the four keys, with a non-empty token
    and a non-empty role, is the session the next process bootstraps to,
    whatever else the store held. *)
Theorem bootstrap_persisted_session (store : gmap string string)
    (t r i n : string) :
  t ≠ "" → r ≠ "" →
  bootstrap (<["token" := t]> (<["role" := r]>
               (<["user_id" := i]> (<["user_name" := n]> store))))
  = Some (mkUser (Some t) (Some r) (Some i) (Some n)).
Proof.
  intros Ht Hr. rewrite bootstrap_unfold.
  repeat (rewrite lookup_insert_eq || (rewrite lookup_insert_ne by discriminate)).
  simpl. apply String.eqb_neq in Ht, Hr. rewrite Ht, Hr. reflexivity.
Qed.

Lemma bootstrap_persisted_session_witness :
  bootstrap (<["token" := "abc"]> (<["role" := "teacher"]>
               (<["user_id" := "7"]> (<["user_name" := "Ann"]>
                  (<["token" := "stale"]> ∅)))))
  = Some (mkUser (Some "abc") (Some "teacher") (Some "7") (Some "Ann")).
Proof.
  apply (bootstrap_persisted_session (<["token" := "stale"]> ∅)
           "abc" "teacher" "7" "Ann"); discriminate.
Defined.

(** X12: running the mount effect a second time changes nothing. *)
Theorem bootstrapEffect_idempotent (st : AppState) :
  bootstrapEffect (bootstrapEffect st) = bootstrapEffect st.
Proof.
  unfold bootstrapEffect at 1. rewrite bootstrapEffect_localStorage.
  unfold bootstrapEffect, LocalStorage.getItem.
  destruct (JS.truthy (localStorage st !! "token")
            && JS.truthy (localStorage st !! "role")); reflexivity.
Qed.

(** ** The shell around the routed content *)

(** X13: once loading is over, the sidebar, the class of [<main>] and the
    routed page agree: the sidebar is present exactly when a session is,
    it carries the session's role and name, [<main>] has the class
    "main-content" exactly then, and whenever the routed content is a page
    the sidebar is present exactly when that page is not the login or the
    signup page. *)
Theorem shell_sidebar_consistent (st : AppState) (pathname : string)
    (sidebar : option SidebarProps) (cls : string) (content : option Element) :
  App st pathname = Shell sidebar cls content →
  sidebar = (λ o, mkSidebar (role o) (name o)) <$> user st
  ∧ (cls = "main-content" ↔ is_Some sidebar)
  ∧ (∀ v, content = Some (Render v) →
          (is_Some sidebar ↔ publicView v = false)).
Proof.
  unfold App. destruct (loading st); [discriminate |].
  intros [= <- <- <-]. destruct (user st) as [o|]; simpl.
  - split; [reflexivity | split].
    + split; [intros _; eexists; reflexivity | reflexivity].
    + intros v Hv. apply decideRoute_present_render in Hv.
      split; [| intros _; eexists; reflexivity].
      intros _. destruct v; simpl in Hv; try reflexivity; contradiction.
  - split; [reflexivity | split].
    + split; [discriminate | intros [x Hx]; discriminate].
    + intros v Hv.
      apply decideRoute_anonymous_render in Hv as [[_ ->] | [_ ->]];
        (split; [intros [x Hx]; discriminate | discriminate]).
Qed.

Lemma shell_sidebar_consistent_witness :
  Some (mkSidebar (Some "teacher") (Some "Ann"))
  = (λ o, mkSidebar (role o) (name o))
      <$> user (bootstrapEffect (mount Samples.ann_store))
  ∧ ("main-content" = "main-content"
     ↔ is_Some (Some (mkSidebar (Some "teacher") (Some "Ann"))))
  ∧ (∀ v, Some (Render TeacherDashboard) = Some (Render v) →
          (is_Some (Some (mkSidebar (Some "teacher") (Some "Ann")))
           ↔ publicView v = false)).
Proof.
  apply (shell_sidebar_consistent
           (bootstrapEffect (mount Samples.ann_store)) "/teacher").
  vm_compute. reflexivity.
Defined.

(** X14: a login on a public page lands on the dashboard: for a present
    session "/login" and "/signup" end on "/", showing the page the root
    route holds for the session's role, which is one of the three
    dashboards. *)
Theorem login_lands_on_dashboard (userData : User) (st : AppState)
    (pathname : string) :
  pathname = "/login" ∨ pathname = "/signup" →
  ∃ v, follow 3 (user (handleLogin (Some userData) st)) pathname
       = Some ("/", v)
       ∧ decideRoute (Some userData) "/" = Some (Render v)
       ∧ (v = StudentDashboard ∨ v = TeacherDashboard
          ∨ v = CounselorDashboard).
Proof.
  intros [-> | ->]; cbn [follow handleLogin setUser user];
    unfold decideRoute; simpl; role_cases; eexists;
    (split; [reflexivity | split; [reflexivity | tauto]]).
Qed.

Lemma login_lands_on_dashboard_witness :
  ∃ v, follow 3 (user (handleLogin (Some Samples.sam) (mount ∅))) "/login"
       = Some ("/", v)
       ∧ decideRoute (Some Samples.sam) "/" = Some (Render v)
       ∧ (v = StudentDashboard ∨ v = TeacherDashboard
          ∨ v = CounselorDashboard).
Proof.
  apply (login_lands_on_dashboard Samples.sam (mount ∅) "/login").
  left. reflexivity.
Defined.

(** ** [vite.config.js] *)

Lemma slice_length (n : nat) (s : string) :
  String.length (ViteConfig.slice n s) = String.length s - n.
Proof.
  revert s. induction n as [|n IH]; intros s; simpl.
  - lia.
  - destruct s as [|c rest]; simpl; [reflexivity | apply IH].
Qed.

Lemma prefix_api_inv (path : string) :
  String.prefix "/api" path = true → ∃ rest, path = "/api" ++ rest.
Proof.
  intros Hp. apply String.prefix_correct in Hp.
  destruct path as [|c1 [|c2 [|c3 [|c4 rest]]]]; try discriminate.
  cbn [String.length String.substring] in Hp.
  injection Hp as -> -> -> -> _. exists rest.
  unfold String.append. reflexivity.
Qed.

(** X15: the proxy's [rewrite] removes one leading "/api" and nothing
    else: a path that starts with "/api" loses exactly that prefix (a second
    "/api" behind it stays), and every other path is returned unchanged. *)
Theorem rewrite_strips_api_prefix (path : string) :
  (∀ rest, ViteConfig.rewrite ("/api" ++ rest) = rest)
  ∧ (String.prefix "/api" path = true →
     "/api" ++ ViteConfig.rewrite path = path)
  ∧ (String.prefix "/api" path = false → ViteConfig.rewrite path = path)
  ∧ (String.length (ViteConfig.rewrite path) ≤ String.length path)%nat.
Proof.
  split; [| split; [| split]].
  - intros rest. unfold ViteConfig.rewrite, String.append. simpl.
    destruct rest; reflexivity.
  - intros Hp. unfold ViteConfig.rewrite. rewrite Hp.
    apply prefix_api_inv in Hp as [rest ->].
    unfold String.append. reflexivity.
  - intros Hp. unfold ViteConfig.rewrite. rewrite Hp. reflexivity.
  - unfold ViteConfig.rewrite. destruct (String.prefix "/api" path);
      [rewrite slice_length |]; lia.
Qed.

Lemma rewrite_strips_api_prefix_witness :
  "/api" ++ ViteConfig.rewrite "/api/students/7" = "/api/students/7"
  ∧ ViteConfig.rewrite "/assets/app.js" = "/assets/app.js".
Proof.
  split.
  - apply (proj1 (proj2 (rewrite_strips_api_prefix "/api/students/7"))).
    reflexivity.
  - apply (proj1 (proj2 (proj2 (rewrite_strips_api_prefix "/assets/app.js")))).
    reflexivity.
Defined.

(** X16: no build mode both emits source maps and drops console calls:
    source maps are emitted for "development" only, console calls are
    dropped for "production" only, and any other mode does neither. *)
Theorem mode_flags_exclusive (mode : string) :
  ViteConfig.sourcemap mode && ViteConfig.drop_console mode = false
  ∧ (ViteConfig.sourcemap mode = true ↔ mode = "development")
  ∧ (ViteConfig.drop_console mode = true ↔ mode = "production").
Proof.
  unfold ViteConfig.sourcemap, ViteConfig.drop_console.
  split; [| split; apply String.eqb_eq].
  destruct (String.eqb_spec mode "development") as [-> | _]; reflexivity.
Qed.

(** ** Independence of the source order of the routes *)

(** Literal routes whose patterns are pairwise distinct, up to letter case
    and trailing slashes, can be listed in any order in front of the same
    tail. *)
Lemma matchRoutes_permutation (rs rs' tail : list (string * Element))
    (pathname : string) :
  rs ≡ₚ rs' →
  NoDup (map (λ r, normalize r.1) rs) → Forall (λ r, r.1 ≠ "*") rs →
  matchRoutes (rs ++ tail) pathname = matchRoutes (rs' ++ tail) pathname.
Proof.
  induction 1 as [| [pat el] l l' Hperm IH
                  | [pat1 el1] [pat2 el2] l
                  | l1 l2 l3 H12 IH12 H23 IH23]; intros Hnd Hlit.
  - reflexivity.
  - simpl. destruct (matchPath pat pathname); [reflexivity |].
    apply IH.
    + simpl in Hnd. apply NoDup_cons in Hnd as [_ Hnd]. exact Hnd.
    + apply Forall_cons in Hlit as [_ Hlit]. exact Hlit.
  - simpl.
    destruct (matchPath pat1 pathname) eqn:H1,
             (matchPath pat2 pathname) eqn:H2; try reflexivity.
    exfalso.
    apply Forall_cons in Hlit as [Hl1 Hlit].
    apply Forall_cons in Hlit as [Hl2 _]. simpl in Hl1, Hl2.
    cbn [map fst] in Hnd. apply NoDup_cons in Hnd as [Hnotin _].
    apply Hnotin. rewrite (matchPath_exclusive pat1 pat2 pathname Hl2 Hl1 H1 H2).
    apply elem_of_cons. left. reflexivity.
  - rewrite (IH12 Hnd Hlit). apply IH23.
    + rewrite <- H12. exact Hnd.
    + rewrite <- H12. exact Hlit.
Qed.

Lemma routes_literals_distinct (u : option User) :
  NoDup (map (λ r, normalize r.1) (take 8 (routes u)))
  ∧ Forall (λ r, r.1 ≠ "*") (take 8 (routes u)).
Proof.
  split.
  - replace (map (λ r, normalize r.1) (take 8 (routes u)))
      with (map normalize declaredPaths) by reflexivity.
    vm_compute.
    repeat (apply NoDup_cons_2;
            [rewrite ?not_elem_of_cons;
             repeat split; try discriminate; apply not_elem_of_nil |]).
    apply NoDup_nil_2.
  - simpl. repeat (apply Forall_cons_2; [simpl; discriminate |]).
    apply Forall_nil_2.
Qed.

(** X17: the decision does not depend on the order in which the eight
    literal routes are written: listing them in any other order in front of
    the catch-all gives, for every session and pathname, the same
    element. *)
Theorem decideRoute_order_independent (u : option User)
    (rs : list (string * Element)) (pathname : string) :
  rs ≡ₚ take 8 (routes u) →
  matchRoutes (rs ++ [("*", Navigate "/" true)]) pathname
  = decideRoute u pathname.
Proof.
  intros Hperm. unfold decideRoute. rewrite (routes_split u) at 1.
  destruct (routes_literals_distinct u) as [Hnd Hlit].
  symmetry. apply matchRoutes_permutation.
  - symmetry. exact Hperm.
  - exact Hnd.
  - exact Hlit.
Qed.

Lemma decideRoute_order_independent_witness :
  matchRoutes (reverse (take 8 (routes (Some Samples.sam)))
               ++ [("*", Navigate "/" true)]) "/questionnaire"
  = decideRoute (Some Samples.sam) "/questionnaire".
Proof.
  apply (decideRoute_order_independent (Some Samples.sam)
           (reverse (take 8 (routes (Some Samples.sam)))) "/questionnaire").
  apply reverse_Permutation.
Defined.
